(** * Card.py: a card looked up by exact name on the Scryfall API

    Shallow embedding of [src/Card.py] and the properties of its
    fetch-and-project contract.

    - Python values that a decoded JSON body can hold are the type [value];
      a [dict] with string keys is a [gmap string value].
    - Card instances live in an object store ([heap]); a reference is an
      index into it.
    - Methods are computations in a state-and-exception monad [M].
    - [fetch_json], which [Card.py] calls but does not define, is an
      interface ([Fetcher]) with a state of its own. *)

From Stdlib Require Import ZArith Floats.SpecFloat.
From stdpp Require Import base option list strings gmap fin_maps.

(** ** Python values *)

#[warnings="-register-all"]
Inductive value : Type :=
| VNone
| VBool (b : bool)
| VInt (z : Z)
| VFloat (f : spec_float)
| VStr (s : string)
| VList (l : list value)
| VDict (d : gmap string value).

(** Truth value testing, as [if x:] and [x and y] apply it. *)
Definition str_truthy (s : string) : bool :=
  match s with
  | EmptyString => false
  | String _ _ => true
  end.

Definition dict_truthy (d : gmap string value) : bool :=
  match map_to_list d with
  | [] => false
  | _ :: _ => true
  end.

Definition truthy (v : value) : bool :=
  match v with
  | VNone => false
  | VBool b => b
  | VInt z => negb (z =? 0)%Z
  | VFloat (S754_zero _) => false
  | VFloat _ => true
  | VStr s => str_truthy s
  | VList [] => false
  | VList (_ :: _) => true
  | VDict d => dict_truthy d
  end.

Definition is_dict (v : value) : bool :=
  match v with
  | VDict _ => true
  | _ => false
  end.

(** The name Python gives the type of a value in its error messages. *)
Definition type_name (v : value) : string :=
  match v with
  | VNone => "NoneType"
  | VBool _ => "bool"
  | VInt _ => "int"
  | VFloat _ => "float"
  | VStr _ => "str"
  | VList _ => "list"
  | VDict _ => "dict"
  end.

(** ** Exceptions and outcomes *)

(** A raised exception: [exn_class] is the name of its class, or, for an
    instance of a class that derives from [BaseException] and not from
    [Exception], the name of the built-in such class it is an instance of;
    [exn_msg] is [str(e)]. *)
Record exn : Type := Exn { exn_class : string; exn_msg : string }.

(** The built-in classes that derive from [BaseException] and not from
    [Exception]. *)
Definition base_only : list string :=
  ["BaseException"; "BaseExceptionGroup"; "GeneratorExit";
   "KeyboardInterrupt"; "SystemExit"].

(** [isinstance(e, Exception)], the test of [except Exception]. *)
Definition is_Exception (e : exn) : bool :=
  negb (existsb (String.eqb (exn_class e)) base_only).

Inductive outcome (A : Type) : Type :=
| Return (a : A)
| Raised (e : exn).
Arguments Return {A} a.
Arguments Raised {A} e.

Definition AttributeError (v : value) (attr : string) : exn :=
  Exn "AttributeError"
      ("'" +:+ type_name v +:+ "' object has no attribute '" +:+ attr +:+ "'").

(** [v.get(k)]: [dict.get] with its default [None]; no other value of a
    decoded JSON body has a [get] attribute. *)
Definition py_get (v : value) (k : string) : outcome value :=
  match v with
  | VDict d => Return (default VNone (d !! k))
  | _ => Raised (AttributeError v "get")
  end.

(** ** The card object, the store and the collaborator *)

(** The two attributes [__init__] gives an instance. *)
Record Card : Type := MkCard { name : string; scryfall_response : value }.

(** A reference to an instance: its index in the store. *)
Abbreviation ref := nat.

(** [fetch_json(url)]: not defined in [Card.py]; a blocking GET that returns
    the decoded body or raises, and may answer differently at each call, so
    it threads a state [W] of its own (the remote service). *)
Class Fetcher (W : Type) : Type :=
  fetch_json : string → W → outcome value * W.

(** What a run can observe: the instances, the remote service, every call
    made to [fetch_json] with its outcome, and the lines printed. *)
Record state (W : Type) : Type := MkState {
  heap : list Card;
  net : W;
  calls : list (string * outcome value);
  stdout : list string
}.
Arguments MkState {W} _ _ _ _.
Arguments heap {W} _.
Arguments net {W} _.
Arguments calls {W} _.
Arguments stdout {W} _.

Definition initial {W : Type} (w : W) : state W := MkState [] w [] [].

(** ** State and exceptions *)

Definition M (W A : Type) : Type := state W → outcome A * state W.

Global Instance M_ret {W} : MRet (M W) := λ A a s, (Return a, s).

Global Instance M_bind {W} : MBind (M W) := λ A B k m s,
  match m s with
  | (Return a, s') => k a s'
  | (Raised e, s') => (Raised e, s')
  end.

(** An outcome computed without touching the state. *)
Definition lift {W A} (o : outcome A) : M W A := λ s, (o, s).

(** [try: body / except Exception as e: handler]. What [body] did to the
    state before it raised stays done; an exception that is no instance of
    [Exception] is not caught and goes on to the caller. *)
Definition try_except {W A} (body : M W A) (handler : exn → M W A) : M W A :=
  λ s, match body s with
       | (Return a, s') => (Return a, s')
       | (Raised e, s') =>
           if is_Exception e then handler e s' else (Raised e, s')
       end.

Definition set_scryfall_response (v : value) (c : Card) : Card :=
  MkCard (name c) v.

Definition set_name (n : string) (c : Card) : Card :=
  MkCard n (scryfall_response c).

(** A new instance, before [__init__] has run on it. *)
Definition blank : Card := MkCard "" VNone.

Definition alloc {W} : M W ref := λ s,
  (Return (length (heap s)),
   MkState (heap s ++ [blank]) (net s) (calls s) (stdout s)).

(** [self.<attr>]: a reference that denotes no instance has no attribute. *)
Definition getattr {W A} (attr : string) (proj : Card → A) (self : ref) : M W A :=
  λ s, match heap s !! self with
       | Some c => (Return (proj c), s)
       | None => (Raised (Exn "AttributeError" attr), s)
       end.

(** [self.<attr> = ...] *)
Definition setattr {W} (upd : Card → Card) (self : ref) : M W () := λ s,
  (Return (), MkState (alter upd self (heap s)) (net s) (calls s) (stdout s)).

(** [print(line)] *)
Definition print {W} (line : string) : M W () := λ s,
  (Return (), MkState (heap s) (net s) (calls s) (stdout s ++ [line])).

(** The call [fetch_json(url)], noted in [calls]. *)
Definition call_fetch_json `{Fetcher W} (url : string) : M W value := λ s,
  let '(r, w) := fetch_json url (net s) in
  (r, MkState (heap s) w (calls s ++ [(url, r)]) (stdout s)).

(** ** The class [Card] *)

(** [f"https://api.scryfall.com/cards/named?exact={name}"] *)
Definition get_base_scryfall_url (name : string) : string :=
  "https://api.scryfall.com/cards/named?exact=" +:+ name.

Definition set_base_scryfall_response `{Fetcher W} (self : ref) : M W () :=
  n ← getattr "name" name self;
  let url_to_hit := get_base_scryfall_url n in
  try_except
    (r ← call_fetch_json url_to_hit;
     setattr (set_scryfall_response r) self)
    (λ e, print ("An error occurred while fetching Scryfall response: "
                 +:+ exn_msg e)).

Definition __init__ `{Fetcher W} (self : ref) (name : string) : M W () :=
  setattr (set_name name) self;;
  setattr (set_scryfall_response VNone) self;;
  set_base_scryfall_response self.

(** The expression [Card(name)]: a new instance, initialised. *)
Definition new_Card `{Fetcher W} (name : string) : M W ref :=
  self ← alloc;
  __init__ self name;;
  mret self.

Definition __repr__ {W} (self : ref) : M W string :=
  n ← getattr "name" name self;
  mret ("Card(name=" +:+ n +:+ ")").

(** [sub_key : Optional[str] = None] is an [option string]; the test
    [sub_key and data] is false for [None] and for the empty string alike. *)
Definition get_value_from_base_scryfall_response {W}
    (self : ref) (key : string) (sub_key : option string) : M W value :=
  resp ← getattr "scryfall_response" scryfall_response self;
  if truthy resp then
    data ← lift (py_get resp key);
    match sub_key with
    | Some sk =>
        if str_truthy sk && truthy data then lift (py_get data sk)
        else mret data
    | None => mret data
    end
  else mret VNone.

(** The outcome of [get_value_from_base_scryfall_response] read off the
    stored response alone; [getField_run] below shows that the method
    computes it. *)
Definition projection (resp : value) (key : string) (sub_key : option string)
    : outcome value :=
  if truthy resp then
    match py_get resp key with
    | Return data =>
        match sub_key with
        | Some sk =>
            if str_truthy sk && truthy data then py_get data sk
            else Return data
        | None => Return data
        end
    | Raised e => Raised e
    end
  else Return VNone.

Definition dollar_min_price {W} (self : ref) : M W value :=
  get_value_from_base_scryfall_response self "prices" (Some "usd").

Definition euro_min_price {W} (self : ref) : M W value :=
  get_value_from_base_scryfall_response self "prices" (Some "eur").

Definition online_min_price {W} (self : ref) : M W value :=
  get_value_from_base_scryfall_response self "prices" (Some "tix").

(** ** Runs of a client *)

(** Constructing and reading: the constructor, the field projection, the
    three price properties and [repr]. A client can also call
    [set_base_scryfall_response] itself: see [call] below. *)
Inductive op : Type :=
| Construct (name : string)
| GetField (self : ref) (key : string) (sub_key : option string)
| DollarMinPrice (self : ref)
| EuroMinPrice (self : ref)
| OnlineMinPrice (self : ref)
| Repr (self : ref).

(** The state an operation leaves, whatever it returned or raised. *)
Definition exec `{Fetcher W} (o : op) (s : state W) : state W :=
  match o with
  | Construct n => (new_Card n s).2
  | GetField self key sub_key =>
      (get_value_from_base_scryfall_response self key sub_key s).2
  | DollarMinPrice self => (dollar_min_price self s).2
  | EuroMinPrice self => (euro_min_price self s).2
  | OnlineMinPrice self => (online_min_price self s).2
  | Repr self => (__repr__ self s).2
  end.

Definition is_read (o : op) : bool :=
  match o with
  | Construct _ => false
  | _ => true
  end.

Definition run `{Fetcher W} (ops : list op) (s : state W) : state W :=
  foldl (λ s o, exec o s) s ops.

(** What a fetch that ended in [r] leaves in [scryfall_response]. *)
Definition stored (r : outcome value) : value :=
  match r with
  | Return v => v
  | Raised _ => VNone
  end.

(** The line [set_base_scryfall_response] prints when the fetch raised [e]. *)
Definition fetch_error_line (e : exn) : string :=
  "An error occurred while fetching Scryfall response: " +:+ exn_msg e.

(** The lines a fetch that ended in [r] prints: one if it raised an
    instance of [Exception], none otherwise. *)
Definition printed (r : outcome value) : list string :=
  match r with
  | Return _ => []
  | Raised e => if is_Exception e then [fetch_error_line e] else []
  end.

(** How a method that returns [a] ends after a fetch that ended in [r]:
    an exception the handler does not catch goes on to the caller. *)
Definition after_fetch {A} (r : outcome value) (a : A) : outcome A :=
  match r with
  | Return _ => Return a
  | Raised e => if is_Exception e then Return a else Raised e
  end.

(** ** Collaborators to run the class against *)

(** Answers from a script, one per call, whatever the URL; a connection
    error once the script is used up. *)
Global Instance scripted : Fetcher (list (outcome value)) := λ url script,
  match script with
  | r :: rest => (r, rest)
  | [] => (Raised (Exn "ConnectionError" "no response"), [])
  end.

(** Never answers. *)
Global Instance unreachable_host : Fetcher () := λ url w,
  (Raised (Exn "ConnectionError" ("cannot reach " +:+ url)), w).

(** [Card.py] as it stands: it neither defines nor imports [fetch_json],
    so the call raises [NameError]. *)
Definition not_defined : Fetcher () := λ url w,
  (Raised (Exn "NameError" "name 'fetch_json' is not defined"), w).

Definition prices (usd eur tix : value) : value :=
  VDict {[ "usd" := usd; "eur" := eur; "tix" := tix ]}.

(** The body [{"prices": {"usd": "1.23"}}]. *)
Definition doc_usd_only : gmap string value :=
  {[ "prices" := VDict {[ "usd" := VStr "1.23" ]} ]}.

(** The body [{"prices": {"usd": "50000.00", "eur": null, "tix": null}}]. *)
Definition doc_black_lotus : gmap string value :=
  {[ "prices" := prices (VStr "50000.00") VNone VNone ]}.

(** A body with fields of every shape. *)
Definition doc_mixed : gmap string value :=
  {[ "name" := VStr "Black Lotus";
     "cmc" := VInt 0;
     "oracle_id" := VStr "";
     "legalities" := VDict ∅;
     "flavor_text" := VNone;
     "prices" := VDict {[ "usd" := VStr "1.23"; "" := VStr "blank" ]} ]}.

(** A state with one instance holding [doc], as a fetch left it. *)
Definition holding (n : string) (doc : value) : state () :=
  MkState [MkCard n doc] () [(get_base_scryfall_url n, Return doc)] [].

(** ** Clients that call [set_base_scryfall_response] themselves *)

(** The method is not private: besides the operations of [op], a client can
    call it on an instance it holds. *)
Inductive call : Type :=
| Own (o : op)
| Refetch (self : ref).

Definition exec_call `{Fetcher W} (k : call) (s : state W) : state W :=
  match k with
  | Own o => exec o s
  | Refetch self => (set_base_scryfall_response self s).2
  end.

(** States a client reaches from a program start, where no instance exists
    and nothing was fetched or printed. *)
Inductive reachable_with_refetch `{Fetcher W} : state W → Prop :=
| refetch_initial (w : W) : reachable_with_refetch (initial w)
| refetch_exec (k : call) (s : state W) :
    reachable_with_refetch s → reachable_with_refetch (exec_call k s).

Definition run_calls `{Fetcher W} (ks : list call) (s : state W) : state W :=
  foldl (λ s k, exec_call k s) s ks.

(** Every document is [None] or what some call for its instance's name
    returned. *)
Definition documents_from_some_fetch {W} (s : state W) : Prop :=
  ∀ l c, heap s !! l = Some c →
    scryfall_response c = VNone
    ∨ (get_base_scryfall_url (name c), Return (scryfall_response c)) ∈ calls s.

(** The lines the calls among [cs] printed, in order. *)
Definition error_lines (cs : list (string * outcome value)) : list string :=
  cs ≫= (λ call, printed call.2).

(** How many instances a list of operations constructs. *)
Definition constructions (ops : list op) : nat :=
  length (filter (λ o, is_read o = false) ops).

(** * Properties *)

(** ** Truth values and [dict.get] *)

Example py_get_ex :
  py_get (VDict {[ "usd" := VStr "1.23" ]}) "usd" = Return (VStr "1.23")
  ∧ py_get (VDict {[ "usd" := VStr "1.23" ]}) "eur" = Return VNone
  ∧ py_get (VStr "1.23") "usd"
    = Raised (Exn "AttributeError" "'str' object has no attribute 'get'")
  ∧ truthy (VDict ∅) = false
  ∧ truthy (VDict {[ "usd" := VStr "1.23" ]}) = true.
Proof. vm_compute. auto. Qed.

Lemma str_truthy_true (s : string) : str_truthy s = true ↔ s ≠ "".
Proof. destruct s; simpl; split; congruence. Qed.

Lemma dict_truthy_true (d : gmap string value) : dict_truthy d = true ↔ d ≠ ∅.
Proof.
  unfold dict_truthy. rewrite <- (map_to_list_empty_iff d).
  destruct (map_to_list d); split; congruence.
Qed.

Lemma dict_truthy_lookup (d : gmap string value) k v :
  d !! k = Some v → dict_truthy d = true.
Proof.
  intros Hk. apply dict_truthy_true. intros ->.
  by rewrite lookup_empty in Hk.
Qed.

Lemma py_get_dict (d : gmap string value) k :
  py_get (VDict d) k = Return (default VNone (d !! k)).
Proof. reflexivity. Qed.

Lemma py_get_not_dict v k :
  is_dict v = false → py_get v k = Raised (AttributeError v "get").
Proof. by destruct v. Qed.

(** ** The field projection, run *)

Section Projection.
Context {W : Type}.
Implicit Types (s : state W) (c : Card) (d : gmap string value).

Local Abbreviation getField := (@get_value_from_base_scryfall_response W).

Lemma getField_run s self c key sub_key :
  heap s !! self = Some c →
  getField self key sub_key s = (projection (scryfall_response c) key sub_key, s).
Proof.
  intros Hc.
  unfold get_value_from_base_scryfall_response, projection, getattr, lift.
  unfold mbind, M_bind, mret, M_ret. rewrite Hc.
  destruct (truthy (scryfall_response c)); [| done].
  destruct (py_get (scryfall_response c) key) as [data | e]; [| done].
  destruct sub_key as [sk |]; [| done].
  by destruct (str_truthy sk && truthy data).
Qed.

Lemma getField_no_instance s self key sub_key :
  heap s !! self = None →
  getField self key sub_key s =
    (Raised (Exn "AttributeError" "scryfall_response"), s).
Proof.
  intros Hc. unfold get_value_from_base_scryfall_response, getattr.
  unfold mbind, M_bind. by rewrite Hc.
Qed.

Lemma projection_key d key v :
  d !! key = Some v → projection (VDict d) key None = Return v.
Proof.
  intros Hk. unfold projection. simpl.
  by rewrite (dict_truthy_lookup _ _ _ Hk), Hk.
Qed.

Lemma projection_missing d key sub_key :
  d !! key = None → projection (VDict d) key sub_key = Return VNone.
Proof.
  intros Hk. unfold projection. simpl truthy.
  destruct (dict_truthy d); [| done].
  rewrite py_get_dict, Hk. simpl.
  destruct sub_key as [sk |]; [| done]. by rewrite andb_false_r.
Qed.

Lemma projection_falsy d key v sub_key :
  d !! key = Some v → truthy v = false →
  projection (VDict d) key sub_key = Return v.
Proof.
  intros Hk Hv. unfold projection. simpl truthy.
  rewrite (dict_truthy_lookup _ _ _ Hk), py_get_dict, Hk. simpl.
  destruct sub_key as [sk |]; [| done]. by rewrite Hv, andb_false_r.
Qed.

Lemma projection_sub_key d key v sk :
  d !! key = Some v → sk ≠ "" → truthy v = true →
  projection (VDict d) key (Some sk) = py_get v sk.
Proof.
  intros Hk Hsk Hv. unfold projection. simpl truthy.
  rewrite (dict_truthy_lookup _ _ _ Hk), py_get_dict, Hk. simpl.
  apply str_truthy_true in Hsk. by rewrite Hsk, Hv.
Qed.

Lemma projection_empty_sub_key d key :
  projection (VDict d) key (Some "") = projection (VDict d) key None.
Proof.
  unfold projection. destruct (truthy (VDict d)); [| done].
  by destruct (py_get (VDict d) key).
Qed.

Lemma projection_nested d key d' sk w :
  d !! key = Some (VDict d') → d' !! sk = Some w → sk ≠ "" →
  projection (VDict d) key (Some sk) = Return w.
Proof.
  intros Hk Hsk Hne.
  rewrite (projection_sub_key _ _ _ _ Hk Hne); simpl.
  - by rewrite Hsk.
  - by eapply dict_truthy_lookup.
Qed.

End Projection.

(** ** [get_value_from_base_scryfall_response] *)

(** C1, as the code has it. For an instance whose response is absent or a
    mapping: with no sub-key the method returns [document[key]] when the
    key is there; with a sub-key that is not the empty string it returns
    [document[key][sub_key]] when [document[key]] is a mapping that has the
    sub-key; it returns [None], and raises nothing, when the response is
    absent, when the key is missing, and when a sub-key is given and
    [document[key]] is [None]. The state is left as it was. *)
Theorem getField_spec {W : Type} (s : state W) (self : ref) (c : Card) :
  heap s !! self = Some c →
  (∀ d key v,
      scryfall_response c = VDict d → d !! key = Some v →
      get_value_from_base_scryfall_response self key None s = (Return v, s))
  ∧ (∀ d key d' sk w,
      scryfall_response c = VDict d → d !! key = Some (VDict d') →
      d' !! sk = Some w → sk ≠ "" →
      get_value_from_base_scryfall_response self key (Some sk) s = (Return w, s))
  ∧ (∀ key sub_key,
      scryfall_response c = VNone →
      get_value_from_base_scryfall_response self key sub_key s = (Return VNone, s))
  ∧ (∀ d key sub_key,
      scryfall_response c = VDict d → d !! key = None →
      get_value_from_base_scryfall_response self key sub_key s = (Return VNone, s))
  ∧ (∀ d key sk,
      scryfall_response c = VDict d → d !! key = Some VNone →
      get_value_from_base_scryfall_response self key (Some sk) s = (Return VNone, s)).
Proof.
  intros Hc. repeat split.
  - intros d key v Hd Hk. rewrite (getField_run _ _ _ _ _ Hc), Hd.
    by rewrite (projection_key _ _ _ Hk).
  - intros d key d' sk w Hd Hk Hsk Hne. rewrite (getField_run _ _ _ _ _ Hc), Hd.
    by rewrite (projection_nested _ _ _ _ _ Hk Hsk Hne).
  - intros key sub_key Hd. by rewrite (getField_run _ _ _ _ _ Hc), Hd.
  - intros d key sub_key Hd Hk. rewrite (getField_run _ _ _ _ _ Hc), Hd.
    by rewrite (projection_missing _ _ _ Hk).
  - intros d key sk Hd Hk. rewrite (getField_run _ _ _ _ _ Hc), Hd.
    by rewrite (projection_falsy _ _ _ _ Hk).
Qed.

Lemma getField_spec_witness :
  let s := holding "Black Lotus" (VDict doc_mixed) in
  let s0 := (new_Card "Black Lotus" (initial ())).2 in
  get_value_from_base_scryfall_response 0 "name" None s
    = (Return (VStr "Black Lotus"), s)
  ∧ get_value_from_base_scryfall_response 0 "prices" (Some "usd") s
    = (Return (VStr "1.23"), s)
  ∧ get_value_from_base_scryfall_response 0 "prices" (Some "eur") s0
    = (Return VNone, s0)
  ∧ get_value_from_base_scryfall_response 0 "nonexistent_key" None s
    = (Return VNone, s)
  ∧ get_value_from_base_scryfall_response 0 "flavor_text" (Some "en") s
    = (Return VNone, s).
Proof.
  intros s s0.
  destruct (getField_spec s 0 (MkCard "Black Lotus" (VDict doc_mixed)) eq_refl)
    as (H1 & H2 & _ & H4 & H5).
  destruct (getField_spec s0 0 (MkCard "Black Lotus" VNone) eq_refl)
    as (_ & _ & H3 & _).
  split; [| split; [| split; [| split]]].
  - apply (H1 doc_mixed); reflexivity.
  - apply (H2 doc_mixed "prices" {[ "usd" := VStr "1.23"; "" := VStr "blank" ]});
      [reflexivity | reflexivity | reflexivity | discriminate].
  - apply H3; reflexivity.
  - apply (H4 doc_mixed); reflexivity.
  - apply (H5 doc_mixed); reflexivity.
Defined.

(** C1 fails for the empty string as sub-key: the test [sub_key and data]
    takes it for no sub-key, and the method returns [document[key]] where
    the claim has [document[key][sub_key]]. *)
Lemma getField_empty_sub_key_counterexample :
  let inner : gmap string value := {[ "usd" := VStr "1.23"; "" := VStr "blank" ]} in
  let s := holding "Black Lotus" (VDict doc_mixed) in
  doc_mixed !! "prices" = Some (VDict inner)
  ∧ inner !! "" = Some (VStr "blank")
  ∧ get_value_from_base_scryfall_response 0 "prices" (Some "") s
    = (Return (VDict inner), s)
  ∧ get_value_from_base_scryfall_response 0 "prices" (Some "") s
    ≠ (Return (VStr "blank"), s).
Proof.
  intros inner s.
  assert (Hk : doc_mixed !! "prices" = Some (VDict inner)) by reflexivity.
  assert (Hrun : get_value_from_base_scryfall_response 0 "prices" (Some "") s
                 = (Return (VDict inner), s)).
  { rewrite (getField_run s 0 (MkCard "Black Lotus" (VDict doc_mixed)))
      by reflexivity.
    simpl scryfall_response.
    by rewrite projection_empty_sub_key, (projection_key _ _ _ Hk). }
  split; [done |]. split; [reflexivity |]. split; [done |].
  rewrite Hrun. intros [=].
Qed.

(** C9: when the response is a mapping and the value at [key] is there but
    falsy ([{}], [0], [""], ...), a given sub-key is not looked up and the
    method returns the falsy value itself, not [None]. *)
Theorem getField_falsy_value_returned {W : Type} (s : state W) (self : ref)
    (c : Card) (d : gmap string value) (key sk : string) (v : value) :
  heap s !! self = Some c →
  scryfall_response c = VDict d →
  d !! key = Some v →
  truthy v = false →
  get_value_from_base_scryfall_response self key (Some sk) s = (Return v, s).
Proof.
  intros Hc Hd Hk Hv. rewrite (getField_run _ _ _ _ _ Hc), Hd.
  by rewrite (projection_falsy _ _ _ _ Hk Hv).
Qed.

Lemma getField_falsy_value_returned_witness :
  let s := holding "Black Lotus" (VDict doc_mixed) in
  get_value_from_base_scryfall_response 0 "legalities" (Some "vintage") s
    = (Return (VDict ∅), s)
  ∧ get_value_from_base_scryfall_response 0 "cmc" (Some "x") s
    = (Return (VInt 0), s)
  ∧ get_value_from_base_scryfall_response 0 "oracle_id" (Some "x") s
    = (Return (VStr ""), s).
Proof.
  intros s. split; [| split].
  - apply (getField_falsy_value_returned s 0 (MkCard "Black Lotus" (VDict doc_mixed))
             doc_mixed); reflexivity.
  - apply (getField_falsy_value_returned s 0 (MkCard "Black Lotus" (VDict doc_mixed))
             doc_mixed); reflexivity.
  - apply (getField_falsy_value_returned s 0 (MkCard "Black Lotus" (VDict doc_mixed))
             doc_mixed); reflexivity.
Defined.

(** C10, as the code has it. For an instance whose response is absent or a
    mapping, the method returns a value and raises nothing, unless a
    sub-key other than the empty string is given and the value at [key] is
    truthy and not a mapping: then [data.get] raises [AttributeError].
    A mapping at [key] that lacks the sub-key gives [None]. *)
Theorem getField_raises_only_on_non_mapping {W : Type} (s : state W)
    (self : ref) (c : Card) (key : string) (sub_key : option string) :
  heap s !! self = Some c →
  scryfall_response c = VNone ∨ is_dict (scryfall_response c) = true →
  ((∀ d v sk,
       scryfall_response c = VDict d → d !! key = Some v →
       sub_key = Some sk → sk ≠ "" → truthy v = true → is_dict v = true) →
   ∃ r, get_value_from_base_scryfall_response self key sub_key s = (Return r, s))
  ∧ (∀ d v sk,
       scryfall_response c = VDict d → d !! key = Some v →
       sub_key = Some sk → sk ≠ "" → truthy v = true → is_dict v = false →
       get_value_from_base_scryfall_response self key sub_key s
       = (Raised (AttributeError v "get"), s))
  ∧ (∀ d d' sk,
       scryfall_response c = VDict d → d !! key = Some (VDict d') →
       sub_key = Some sk → sk ≠ "" → d' ≠ ∅ → d' !! sk = None →
       get_value_from_base_scryfall_response self key sub_key s
       = (Return VNone, s)).
Proof.
  intros Hc Hdoc. rewrite (getField_run _ _ _ _ _ Hc).
  split; [| split].
  - intros Hshape.
    destruct Hdoc as [-> | Hdoc]; [by eexists |].
    destruct (scryfall_response c) as [| | | | | | d] eqn:Hd; try done.
    destruct (d !! key) as [v |] eqn:Hk.
    2: { eexists. by rewrite (projection_missing _ _ _ Hk). }
    destruct (truthy v) eqn:Hv.
    2: { eexists. by rewrite (projection_falsy _ _ _ _ Hk Hv). }
    destruct sub_key as [sk |].
    2: { eexists. by rewrite (projection_key _ _ _ Hk). }
    destruct (decide (sk = "")) as [-> | Hne].
    { eexists. by rewrite projection_empty_sub_key, (projection_key _ _ _ Hk). }
    rewrite (projection_sub_key _ _ _ _ Hk Hne Hv).
    specialize (Hshape d v sk eq_refl Hk eq_refl Hne Hv).
    destruct v; try done. eexists. by rewrite py_get_dict.
  - intros d v sk -> Hk -> Hne Hv Hnd.
    by rewrite (projection_sub_key _ _ _ _ Hk Hne Hv), (py_get_not_dict _ _ Hnd).
  - intros d d' sk -> Hk -> Hne Hd' Hsk.
    apply dict_truthy_true in Hd'.
    rewrite (projection_sub_key _ _ _ _ Hk Hne Hd'). simpl. by rewrite Hsk.
Qed.

Lemma getField_raises_only_on_non_mapping_witness :
  let s := holding "Black Lotus" (VDict doc_mixed) in
  (∃ r, get_value_from_base_scryfall_response 0 "prices" (Some "usd") s
        = (Return r, s))
  ∧ get_value_from_base_scryfall_response 0 "name" (Some "first") s
    = (Raised (AttributeError (VStr "Black Lotus") "get"), s)
  ∧ get_value_from_base_scryfall_response 0 "prices" (Some "eur") s
    = (Return VNone, s).
Proof.
  intros s.
  pose (c := MkCard "Black Lotus" (VDict doc_mixed)).
  split; [| split].
  - destruct (getField_raises_only_on_non_mapping s 0 c "prices" (Some "usd")
                eq_refl (or_intror eq_refl)) as (Hret & _ & _).
    apply Hret. intros d v sk [= <-] Hk _ _ _. vm_compute in Hk.
    injection Hk as <-. reflexivity.
  - destruct (getField_raises_only_on_non_mapping s 0 c "name" (Some "first")
                eq_refl (or_intror eq_refl)) as (_ & Hraise & _).
    apply (Hraise doc_mixed (VStr "Black Lotus") "first");
      [reflexivity | reflexivity | reflexivity | discriminate
      | reflexivity | reflexivity].
  - destruct (getField_raises_only_on_non_mapping s 0 c "prices" (Some "eur")
                eq_refl (or_intror eq_refl)) as (_ & _ & Hlack).
    apply (Hlack doc_mixed {[ "usd" := VStr "1.23"; "" := VStr "blank" ]} "eur");
      [reflexivity | reflexivity | reflexivity | discriminate | | reflexivity].
    intros Hempty.
    assert (Hl : ({[ "usd" := VStr "1.23"; "" := VStr "blank" ]}
                    : gmap string value) !! "usd" = Some (VStr "1.23"))
      by reflexivity.
    rewrite Hempty in Hl. vm_compute in Hl. discriminate.
Defined.

(** C10 fails where the value at [key] is a non-empty string and a sub-key
    is given: the response [{"name": "Black Lotus", ...}] and the call
    [get_value_from_base_scryfall_response("name", "first")] end in
    [AttributeError: 'str' object has no attribute 'get']. *)
Lemma getField_raises_counterexample :
  let s := holding "Black Lotus" (VDict doc_mixed) in
  doc_mixed !! "name" = Some (VStr "Black Lotus")
  ∧ get_value_from_base_scryfall_response 0 "name" (Some "first") s
    = (Raised (Exn "AttributeError" "'str' object has no attribute 'get'"), s)
  ∧ ¬ ∃ r, (get_value_from_base_scryfall_response 0 "name" (Some "first") s).1
           = Return r.
Proof.
  intros s.
  assert (Hk : doc_mixed !! "name" = Some (VStr "Black Lotus")) by reflexivity.
  assert (Hrun : get_value_from_base_scryfall_response 0 "name" (Some "first") s
      = (Raised (Exn "AttributeError" "'str' object has no attribute 'get'"), s)).
  { rewrite (getField_run s 0 (MkCard "Black Lotus" (VDict doc_mixed)))
      by reflexivity.
    simpl scryfall_response.
    by rewrite (projection_sub_key _ _ _ _ Hk). }
  split; [done |]. split; [done |].
  rewrite Hrun. intros [r [=]].
Qed.

(** ** The constructor, run *)

Lemma lookup_fresh (l : list Card) (c : Card) : (l ++ [c]) !! length l = Some c.
Proof. by rewrite list_lookup_middle. Qed.

Lemma alter_fresh (f : Card → Card) (l : list Card) (c : Card) :
  alter f (length l) (l ++ [c]) = l ++ [f c].
Proof.
  replace (length l) with (length l + 0) at 1 by lia.
  by rewrite alter_app_r.
Qed.

Section Construction.
Context `{Fetcher W}.
Implicit Types (s : state W) (c : Card).

Lemma set_base_scryfall_response_run s self c r w :
  heap s !! self = Some c →
  fetch_json (get_base_scryfall_url (name c)) (net s) = (r, w) →
  set_base_scryfall_response self s =
    (after_fetch r (),
     MkState (match r with
              | Return v => alter (set_scryfall_response v) self (heap s)
              | Raised _ => heap s
              end)
             w
             (calls s ++ [(get_base_scryfall_url (name c), r)])
             (stdout s ++ printed r)).
Proof.
  intros Hc Hf.
  unfold set_base_scryfall_response, try_except, call_fetch_json, getattr,
    setattr, print.
  unfold mbind, M_bind. rewrite Hc. simpl. rewrite Hf.
  destruct r as [v | e]; simpl.
  - by rewrite app_nil_r.
  - destruct (is_Exception e); simpl; [done | by rewrite app_nil_r].
Qed.

Lemma new_Card_run s n r w :
  fetch_json (get_base_scryfall_url n) (net s) = (r, w) →
  new_Card n s =
    (after_fetch r (length (heap s)),
     MkState (heap s ++ [MkCard n (stored r)]) w
             (calls s ++ [(get_base_scryfall_url n, r)])
             (stdout s ++ printed r)).
Proof.
  intros Hf. unfold new_Card, __init__, alloc, setattr at 1 2.
  unfold mbind, M_bind, mret, M_ret. simpl.
  rewrite !alter_fresh. simpl.
  erewrite set_base_scryfall_response_run;
    [| simpl; apply lookup_fresh | simpl; exact Hf].
  destruct r as [v | e]; simpl.
  - by rewrite alter_fresh.
  - by destruct (is_Exception e).
Qed.

Lemma new_Card_returned s n v w :
  fetch_json (get_base_scryfall_url n) (net s) = (Return v, w) →
  new_Card n s =
    (Return (length (heap s)),
     MkState (heap s ++ [MkCard n (stored (Return v))]) w
             (calls s ++ [(get_base_scryfall_url n, Return v)])
             (stdout s ++ printed (Return v))).
Proof. apply new_Card_run. Qed.

Lemma new_Card_total s n :
  ∃ r w, fetch_json (get_base_scryfall_url n) (net s) = (r, w).
Proof. destruct (fetch_json _ _) as [r w]. by exists r, w. Qed.

End Construction.

Section Reads.
Context {W : Type}.
Implicit Types (s : state W).

Lemma getField_state s self key sub_key :
  (get_value_from_base_scryfall_response self key sub_key s).2 = s.
Proof.
  destruct (heap s !! self) as [c |] eqn:Hc.
  - by rewrite (getField_run _ _ _ _ _ Hc).
  - by rewrite (getField_no_instance _ _ _ _ Hc).
Qed.

Lemma repr_state s self : (__repr__ self s).2 = s.
Proof.
  unfold __repr__, getattr, mbind, M_bind.
  by destruct (heap s !! self).
Qed.

Lemma repr_run s self c :
  heap s !! self = Some c →
  __repr__ self s = (Return ("Card(name=" +:+ name c +:+ ")"), s).
Proof.
  intros Hc. unfold __repr__, getattr, mbind, M_bind. by rewrite Hc.
Qed.

End Reads.

Section Runs.
Context `{Fetcher W}.
Implicit Types (s : state W) (o : op).

Lemma exec_read o s : is_read o = true → exec o s = s.
Proof.
  destruct o; simpl; try done; intros _;
    first [apply getField_state | apply repr_state].
Qed.

Lemma run_reads ops s : Forall (λ o, is_read o = true) ops → run ops s = s.
Proof.
  intros Hops. revert s.
  induction Hops as [| o ops Ho _ IH]; intros s; [done |].
  unfold run in *. simpl. rewrite (exec_read _ _ Ho). apply IH.
Qed.

Lemma exec_construct n s r w :
  fetch_json (get_base_scryfall_url n) (net s) = (r, w) →
  exec (Construct n) s =
    MkState (heap s ++ [MkCard n (stored r)]) w
            (calls s ++ [(get_base_scryfall_url n, r)])
            (stdout s ++ printed r).
Proof. intros Hf. simpl. by rewrite (new_Card_run _ _ _ _ Hf). Qed.

(** No operation touches an instance that exists. *)
Lemma exec_keeps_instances o s l c :
  heap s !! l = Some c → heap (exec o s) !! l = Some c.
Proof.
  intros Hl. destruct (is_read o) eqn:Ho.
  - by rewrite (exec_read _ _ Ho).
  - destruct o as [n | | | | |]; try done.
    destruct (new_Card_total s n) as (r & w & Hf).
    rewrite (exec_construct _ _ _ _ Hf). simpl.
    by apply lookup_app_l_Some.
Qed.

End Runs.

(** ** Construction *)

Lemma substring_whole (n : string) :
  String.substring 0 (String.length n) n = n.
Proof. induction n as [| a n IH]; simpl; [done | by rewrite IH]. Qed.

(** C3: the URL is the fixed prefix followed by the name as it is; nothing
    in the name is encoded, so the name can be read back off the URL, and
    two names give the same URL only if they are the same name. *)
Theorem get_base_scryfall_url_verbatim (n : string) :
  get_base_scryfall_url n = "https://api.scryfall.com/cards/named?exact=" +:+ n
  ∧ String.length (get_base_scryfall_url n) = 43 + String.length n
  ∧ String.substring 43 (String.length n) (get_base_scryfall_url n) = n
  ∧ ∀ m, get_base_scryfall_url m = get_base_scryfall_url n → m = n.
Proof.
  split; [done |]. split; [done |]. split.
  - unfold get_base_scryfall_url. simpl. apply substring_whole.
  - intros m Heq. by simplify_eq/=.
Qed.

Example get_base_scryfall_url_black_lotus :
  get_base_scryfall_url "Black Lotus"
  = "https://api.scryfall.com/cards/named?exact=Black Lotus".
Proof. reflexivity. Qed.

(** C2, as the code has it: when [fetch_json] raises an instance of
    [Exception], [Card(name)] still returns the new instance; its response
    is [None], the error is printed, and the three prices are [None]. When
    it raises anything else, that exception leaves the constructor and
    nothing is printed. *)
Theorem construction_survives_failed_fetch `{Fetcher W} (s : state W)
    (n : string) (e : exn) (w : W) :
  fetch_json (get_base_scryfall_url n) (net s) = (Raised e, w) →
  (is_Exception e = true →
   ∃ s', new_Card n s = (Return (length (heap s)), s')
     ∧ heap s' = (heap s ++ [MkCard n VNone])%list
     ∧ stdout s' = (stdout s ++ [fetch_error_line e])%list
     ∧ dollar_min_price (length (heap s)) s' = (Return VNone, s')
     ∧ euro_min_price (length (heap s)) s' = (Return VNone, s')
     ∧ online_min_price (length (heap s)) s' = (Return VNone, s'))
  ∧ (is_Exception e = false →
     ∃ s', new_Card n s = (Raised e, s') ∧ stdout s' = stdout s).
Proof.
  intros Hf. rewrite (new_Card_run _ _ _ _ Hf).
  unfold after_fetch, printed. split; intros He; rewrite He.
  - eexists. split; [reflexivity |]. cbn [heap stdout stored].
    split; [done |]. split; [done |].
    unfold dollar_min_price, euro_min_price, online_min_price.
    repeat split; by erewrite getField_run by apply lookup_fresh.
  - eexists. split; [reflexivity |]. cbn [stdout]. apply app_nil_r.
Qed.

Lemma construction_survives_failed_fetch_witness :
  ∃ s', new_Card "Black Lotus" (initial ()) = (Return 0, s')
    ∧ heap s' = [MkCard "Black Lotus" VNone]
    ∧ stdout s' =
        [fetch_error_line
           (Exn "ConnectionError"
                "cannot reach https://api.scryfall.com/cards/named?exact=Black Lotus")]
    ∧ dollar_min_price 0 s' = (Return VNone, s')
    ∧ euro_min_price 0 s' = (Return VNone, s')
    ∧ online_min_price 0 s' = (Return VNone, s').
Proof.
  exact (proj1 (construction_survives_failed_fetch (initial ()) "Black Lotus"
                  _ () eq_refl) eq_refl).
Defined.

(** C2 fails where [fetch_json] raises what [except Exception] does not
    catch: a [KeyboardInterrupt] during the fetch leaves the constructor,
    no reference is returned and nothing is printed. *)
Lemma construction_interrupted_counterexample :
  let s := initial [Raised (Exn "KeyboardInterrupt" "")] in
  fetch_json (get_base_scryfall_url "Black Lotus") (net s)
  = (Raised (Exn "KeyboardInterrupt" ""), [])
  ∧ (new_Card "Black Lotus" s).1 = Raised (Exn "KeyboardInterrupt" "")
  ∧ stdout (new_Card "Black Lotus" s).2 = []
  ∧ (new_Card "Black Lotus" s).1 ≠ Return 0.
Proof.
  intros s.
  assert (Hrun : (new_Card "Black Lotus" s).1
                 = Raised (Exn "KeyboardInterrupt" "")) by reflexivity.
  split; [reflexivity |]. split; [exact Hrun |]. split; [reflexivity |].
  rewrite Hrun. intros [=].
Qed.

(** C4: [Card(n)] calls [fetch_json] once, with the URL
    [https://api.scryfall.com/cards/named?exact=] followed by [n], and the
    remote service is left as that one call left it; the field projection,
    the three prices and [repr] make no call. *)
Theorem construction_fetches_once `{Fetcher W} (s : state W) (n : string) :
  (∃ r, calls (new_Card n s).2
        = (calls s ++ [("https://api.scryfall.com/cards/named?exact=" +:+ n, r)])%list
        ∧ fetch_json ("https://api.scryfall.com/cards/named?exact=" +:+ n) (net s)
          = (r, net (new_Card n s).2))
  ∧ (∀ (s' : state W) self key sub_key,
        calls (get_value_from_base_scryfall_response self key sub_key s').2 = calls s'
        ∧ net (get_value_from_base_scryfall_response self key sub_key s').2 = net s')
  ∧ (∀ (s' : state W) self,
        calls (dollar_min_price self s').2 = calls s'
        ∧ net (dollar_min_price self s').2 = net s'
        ∧ calls (euro_min_price self s').2 = calls s'
        ∧ net (euro_min_price self s').2 = net s'
        ∧ calls (online_min_price self s').2 = calls s'
        ∧ net (online_min_price self s').2 = net s'
        ∧ calls (__repr__ self s').2 = calls s'
        ∧ net (__repr__ self s').2 = net s').
Proof.
  split; [| split].
  - destruct (new_Card_total s n) as (r & w & Hf).
    exists r. rewrite (new_Card_run _ _ _ _ Hf). simpl.
    split; [done | exact Hf].
  - intros s' self key sub_key. by rewrite getField_state.
  - intros s' self.
    unfold dollar_min_price, euro_min_price, online_min_price.
    by rewrite !getField_state, repr_state.
Qed.

(** The end-to-end run: ["Black Lotus"] against the body
    [{"prices": {"usd": "50000.00", "eur": null, "tix": null}}]. *)
Example run_black_lotus :
  let s := (new_Card "Black Lotus" (initial [Return (VDict doc_black_lotus)])).2 in
  heap s = [MkCard "Black Lotus" (VDict doc_black_lotus)]
  ∧ (dollar_min_price 0 s).1 = Return (VStr "50000.00")
  ∧ (euro_min_price 0 s).1 = Return VNone
  ∧ (online_min_price 0 s).1 = Return VNone
  ∧ (__repr__ 0 s).1 = Return "Card(name=Black Lotus)".
Proof. vm_compute. repeat split. Qed.

(** [Card.py] run with [fetch_json] unbound: the [NameError] is caught and
    printed, and the instance holds no document. *)
Example run_not_defined :
  let s := (new_Card (H := not_defined) "Black Lotus" (initial ())).2 in
  heap s = [MkCard "Black Lotus" VNone]
  ∧ stdout s = ["An error occurred while fetching Scryfall response: "
                +:+ "name 'fetch_json' is not defined"]
  ∧ (dollar_min_price 0 s).1 = Return VNone.
Proof. vm_compute. repeat split. Qed.

(** ** Reads *)

(** C7: the field projection, the three prices and [repr] leave the state
    as it was: every instance keeps its name and its response. *)
Theorem reads_change_nothing {W : Type} (s : state W) (self : ref)
    (key : string) (sub_key : option string) :
  (get_value_from_base_scryfall_response self key sub_key s).2 = s
  ∧ (dollar_min_price self s).2 = s
  ∧ (euro_min_price self s).2 = s
  ∧ (online_min_price self s).2 = s
  ∧ (__repr__ self s).2 = s.
Proof.
  unfold dollar_min_price, euro_min_price, online_min_price.
  by rewrite !getField_state, repr_state.
Qed.

(** ** Prices *)

(** C5: each price is the field projection at ["prices"] and its currency
    code, and gives back the value stored under that code as it is,
    whatever that value is; when [fetch_json] returns a mapping with
    [{"prices": {"usd": "1.23"}}], the dollar price of the instance made
    from it is the string ["1.23"] and the other two are [None]. *)
Theorem prices_are_raw_fields `{Fetcher W} (s : state W) :
  (∀ self,
     dollar_min_price self s
     = get_value_from_base_scryfall_response self "prices" (Some "usd") s
     ∧ euro_min_price self s
       = get_value_from_base_scryfall_response self "prices" (Some "eur") s
     ∧ online_min_price self s
       = get_value_from_base_scryfall_response self "prices" (Some "tix") s)
  ∧ (∀ self c d p v,
       heap s !! self = Some c →
       scryfall_response c = VDict d → d !! "prices" = Some (VDict p) →
       (p !! "usd" = Some v → dollar_min_price self s = (Return v, s))
       ∧ (p !! "eur" = Some v → euro_min_price self s = (Return v, s))
       ∧ (p !! "tix" = Some v → online_min_price self s = (Return v, s)))
  ∧ (∀ n d w,
       fetch_json (get_base_scryfall_url n) (net s) = (Return (VDict d), w) →
       d !! "prices" = Some (VDict {[ "usd" := VStr "1.23" ]}) →
       ∃ s', new_Card n s = (Return (length (heap s)), s')
         ∧ dollar_min_price (length (heap s)) s' = (Return (VStr "1.23"), s')
         ∧ euro_min_price (length (heap s)) s' = (Return VNone, s')
         ∧ online_min_price (length (heap s)) s' = (Return VNone, s')).
Proof.
  split; [done |].
  unfold dollar_min_price, euro_min_price, online_min_price.
  split.
  - intros self c d p v Hc Hd Hp.
    rewrite !(getField_run _ _ _ _ _ Hc), Hd.
    repeat split; intros Hv;
      by rewrite (projection_nested _ _ _ _ _ Hp Hv).
  - intros n d w Hf Hp. eexists.
    split; [by apply new_Card_returned |].
    assert (Husd : ({[ "usd" := VStr "1.23" ]} : gmap string value) !! "usd"
                   = Some (VStr "1.23")) by apply lookup_singleton_eq.
    rewrite !(getField_run _ _ (MkCard n (VDict d))) by apply lookup_fresh.
    simpl scryfall_response.
    rewrite (projection_nested _ _ _ _ _ Hp Husd) by done.
    rewrite !(projection_sub_key _ _ _ _ Hp);
      try done; try by eapply dict_truthy_lookup.
Qed.

Lemma prices_are_raw_fields_witness :
  let s := initial [Return (VDict doc_usd_only)] in
  let s' := holding "Black Lotus" (VDict doc_black_lotus) in
  (∃ s1, new_Card "Black Lotus" s = (Return 0, s1)
     ∧ dollar_min_price 0 s1 = (Return (VStr "1.23"), s1)
     ∧ euro_min_price 0 s1 = (Return VNone, s1)
     ∧ online_min_price 0 s1 = (Return VNone, s1))
  ∧ dollar_min_price 0 s' = (Return (VStr "50000.00"), s').
Proof.
  intros s s'. split.
  - destruct (prices_are_raw_fields s) as (_ & _ & Husd).
    apply (Husd "Black Lotus" doc_usd_only []); reflexivity.
  - destruct (prices_are_raw_fields (H := unreachable_host) s') as (_ & Hraw & _).
    apply (Hraw 0 (MkCard "Black Lotus" (VDict doc_black_lotus)) doc_black_lotus
             {[ "usd" := VStr "50000.00"; "eur" := VNone; "tix" := VNone ]}
             (VStr "50000.00")); reflexivity.
Defined.

(** ** Calls of a client, run *)

Section Refetch.
Context `{Fetcher W}.
Implicit Types (s : state W) (k : call).

Lemma set_base_scryfall_response_no_instance s self :
  heap s !! self = None →
  set_base_scryfall_response self s = (Raised (Exn "AttributeError" "name"), s).
Proof.
  intros Hc. unfold set_base_scryfall_response, getattr, mbind, M_bind.
  by rewrite Hc.
Qed.

Lemma error_lines_app cs cs' :
  error_lines (cs ++ cs') = error_lines cs ++ error_lines cs'.
Proof. unfold error_lines. apply bind_app. Qed.

Lemma error_lines_one url r : error_lines [(url, r)] = printed r.
Proof. unfold error_lines. simpl. apply app_nil_r. Qed.

(** What any call of a client adds to the calls and to the output. *)
Lemma exec_call_trace k s :
  ∃ new,
    calls (exec_call k s) = calls s ++ new
    ∧ stdout (exec_call k s) = stdout s ++ error_lines new.
Proof.
  destruct k as [o | self]; simpl.
  - destruct (is_read o) eqn:Ho.
    + exists []. rewrite (exec_read _ _ Ho). by rewrite !app_nil_r.
    + destruct o as [n | | | | |]; try done.
      destruct (new_Card_total s n) as (r & w & Hf).
      exists [(get_base_scryfall_url n, r)].
      by rewrite error_lines_one, (exec_construct _ _ _ _ Hf).
  - destruct (heap s !! self) as [c |] eqn:Hc.
    + destruct (fetch_json (get_base_scryfall_url (name c)) (net s))
        as [r w] eqn:Hf.
      exists [(get_base_scryfall_url (name c), r)].
      by rewrite error_lines_one,
        (set_base_scryfall_response_run _ _ _ _ _ Hc Hf).
    + exists []. rewrite (set_base_scryfall_response_no_instance _ _ Hc).
      by rewrite !app_nil_r.
Qed.

Lemma some_fetch_more_calls (c : Card) (cs new : list (string * outcome value)) :
  scryfall_response c = VNone
  ∨ (get_base_scryfall_url (name c), Return (scryfall_response c)) ∈ cs →
  scryfall_response c = VNone
  ∨ (get_base_scryfall_url (name c), Return (scryfall_response c)) ∈ cs ++ new.
Proof. intros [? | ?]; [by left | right]. apply elem_of_app. by left. Qed.

Lemma exec_call_documents k s :
  documents_from_some_fetch s → documents_from_some_fetch (exec_call k s).
Proof.
  intros Hinv. destruct k as [o | self]; simpl.
  - destruct (is_read o) eqn:Ho; [by rewrite (exec_read _ _ Ho) |].
    destruct o as [n | | | | |]; try done.
    destruct (new_Card_total s n) as (r & w & Hf).
    rewrite (exec_construct _ _ _ _ Hf).
    intros l c. simpl. rewrite lookup_app_Some.
    intros [Hl | [_ Hl]].
    + by apply some_fetch_more_calls, (Hinv l c).
    + apply list_lookup_singleton_Some in Hl as [_ <-]. simpl.
      destruct r as [v | e]; [right | by left].
      apply elem_of_app. right. by apply list_elem_of_singleton.
  - destruct (heap s !! self) as [c0 |] eqn:Hc.
    2: { by rewrite (set_base_scryfall_response_no_instance _ _ Hc). }
    destruct (fetch_json (get_base_scryfall_url (name c0)) (net s))
      as [r w] eqn:Hf.
    rewrite (set_base_scryfall_response_run _ _ _ _ _ Hc Hf).
    intros l c. simpl. destruct r as [v | e].
    + destruct (decide (self = l)) as [<- | Hne].
      * rewrite list_lookup_alter_eq, Hc. intros [= <-]. simpl. right.
        apply elem_of_app. right. by apply list_elem_of_singleton.
      * rewrite list_lookup_alter_ne by done. intros Hl.
        by apply some_fetch_more_calls, (Hinv l c).
    + intros Hl. by apply some_fetch_more_calls, (Hinv l c).
Qed.

(** No call of a client changes the name of an instance or removes one. *)
Lemma exec_call_keeps_names k s l c :
  heap s !! l = Some c →
  ∃ c', heap (exec_call k s) !! l = Some c' ∧ name c' = name c.
Proof.
  intros Hl. destruct k as [o | self]; simpl.
  - exists c. split; [by apply exec_keeps_instances | done].
  - destruct (heap s !! self) as [c0 |] eqn:Hc.
    2: { rewrite (set_base_scryfall_response_no_instance _ _ Hc). eauto. }
    destruct (fetch_json (get_base_scryfall_url (name c0)) (net s))
      as [r w] eqn:Hf.
    rewrite (set_base_scryfall_response_run _ _ _ _ _ Hc Hf). simpl.
    destruct r as [v | e]; [| eauto].
    destruct (decide (self = l)) as [<- | Hne].
    + rewrite list_lookup_alter_eq, Hl. simpl. eauto.
    + rewrite list_lookup_alter_ne by done. eauto.
Qed.


Lemma reachable_with_refetch_run ks s :
  reachable_with_refetch s → reachable_with_refetch (run_calls ks s).
Proof.
  revert s. induction ks as [| k ks IH]; intros s Hs; [done |].
  apply (IH (exec_call k s)). by constructor.
Qed.

End Refetch.

(** ** Instances and their documents *)




(** C8: two instances made for the same name, the first fetch returning
    [v1] and the second [v2], are two objects; the first holds [v1] and the
    second [v2], and what the field projection (hence each price) gives on
    either is read off its own document alone, so the two differ wherever
    their documents do. *)
Theorem instances_hold_own_documents `{Fetcher W} (s : state W) (n : string)
    (v1 v2 : value) (w1 w2 : W) :
  fetch_json (get_base_scryfall_url n) (net s) = (Return v1, w1) →
  fetch_json (get_base_scryfall_url n) w1 = (Return v2, w2) →
  ∃ s1 s2,
    new_Card n s = (Return (length (heap s)), s1)
    ∧ new_Card n s1 = (Return (S (length (heap s))), s2)
    ∧ heap s2 !! length (heap s) = Some (MkCard n v1)
    ∧ heap s2 !! S (length (heap s)) = Some (MkCard n v2)
    ∧ (∀ key sub_key,
         get_value_from_base_scryfall_response (length (heap s)) key sub_key s2
         = (projection v1 key sub_key, s2)
         ∧ get_value_from_base_scryfall_response (S (length (heap s))) key sub_key s2
           = (projection v2 key sub_key, s2))
    ∧ (∀ key sub_key,
         projection v1 key sub_key ≠ projection v2 key sub_key →
         (get_value_from_base_scryfall_response (length (heap s)) key sub_key s2).1
         ≠ (get_value_from_base_scryfall_response (S (length (heap s))) key sub_key s2).1).
Proof.
  intros Hf1 Hf2.
  pose proof (new_Card_returned s n _ _ Hf1) as Hrun1.
  set (s1 := MkState (heap s ++ [MkCard n (stored (Return v1))]) w1
               (calls s ++ [(get_base_scryfall_url n, Return v1)])
               (stdout s ++ printed (Return v1))) in *.
  pose proof (new_Card_returned s1 n v2 w2 Hf2) as Hrun2.
  set (s2 := MkState (heap s1 ++ [MkCard n (stored (Return v2))]) w2
               (calls s1 ++ [(get_base_scryfall_url n, Return v2)])
               (stdout s1 ++ printed (Return v2))) in *.
  assert (Hlen : length (heap s1) = S (length (heap s))).
  { simpl. rewrite length_app. simpl. lia. }
  assert (Ha : heap s2 !! length (heap s) = Some (MkCard n v1)).
  { simpl. apply lookup_app_l_Some, lookup_fresh. }
  assert (Hb : heap s2 !! S (length (heap s)) = Some (MkCard n v2)).
  { rewrite <- Hlen. apply lookup_fresh. }
  exists s1, s2. rewrite Hrun1, Hrun2, Hlen.
  repeat (split; [done |]).
  assert (Hget : ∀ key sub_key,
    get_value_from_base_scryfall_response (length (heap s)) key sub_key s2
    = (projection v1 key sub_key, s2)
    ∧ get_value_from_base_scryfall_response (S (length (heap s))) key sub_key s2
      = (projection v2 key sub_key, s2)).
  { intros key sub_key.
    by rewrite (getField_run _ _ _ _ _ Ha), (getField_run _ _ _ _ _ Hb). }
  split; [exact Hget |].
  intros key sub_key Hne. destruct (Hget key sub_key) as [-> ->]. done.
Qed.

Lemma instances_hold_own_documents_witness :
  let cheap := VDict {[ "prices" := VDict {[ "usd" := VStr "1.23" ]} ]} in
  let dear := VDict {[ "prices" := VDict {[ "usd" := VStr "2.00" ]} ]} in
  ∃ s1 s2,
    new_Card "Black Lotus" (initial [Return cheap; Return dear]) = (Return 0, s1)
    ∧ new_Card "Black Lotus" s1 = (Return 1, s2)
    ∧ heap s2 !! 0 = Some (MkCard "Black Lotus" cheap)
    ∧ heap s2 !! 1 = Some (MkCard "Black Lotus" dear)
    ∧ dollar_min_price 0 s2 = (Return (VStr "1.23"), s2)
    ∧ dollar_min_price 1 s2 = (Return (VStr "2.00"), s2).
Proof.
  intros cheap dear.
  destruct (instances_hold_own_documents
              (initial [Return cheap; Return dear]) "Black Lotus"
              cheap dear [Return dear] [] eq_refl eq_refl)
    as (s1 & s2 & H1 & H2 & Ha & Hb & Hget & _).
  exists s1, s2. repeat (split; [assumption |]).
  split.
  - exact (proj1 (Hget "prices" (Some "usd"))).
  - exact (proj2 (Hget "prices" (Some "usd"))).
Defined.

(** ** Calling [set_base_scryfall_response] again *)

(** The method is not private. Called on an instance that exists, it fetches
    once more for the instance's name: a response replaces the stored one
    whole; a raised [Exception] is printed, the stored response stays and
    the method returns; any other exception leaves the method, nothing is
    printed and the stored response stays. *)
Theorem refetch_replaces_or_keeps `{Fetcher W} (s : state W) (self : ref)
    (c : Card) (r : outcome value) (w : W) :
  heap s !! self = Some c →
  fetch_json (get_base_scryfall_url (name c)) (net s) = (r, w) →
  ∃ s', set_base_scryfall_response self s = (after_fetch r (), s')
    ∧ heap s' !! self
      = Some (MkCard (name c)
                (match r with
                 | Return v => v
                 | Raised _ => scryfall_response c
                 end))
    ∧ (∀ l, l ≠ self → heap s' !! l = heap s !! l)
    ∧ calls s' = (calls s ++ [(get_base_scryfall_url (name c), r)])%list
    ∧ stdout s' = (stdout s ++ printed r)%list.
Proof.
  intros Hc Hf. eexists.
  split; [by apply set_base_scryfall_response_run |]. simpl.
  destruct r as [v | e].
  - split.
    + rewrite list_lookup_alter_eq, Hc. reflexivity.
    + split; [| done]. intros l Hl. by rewrite list_lookup_alter_ne.
  - split; [by destruct c |]. done.
Qed.

Lemma refetch_replaces_or_keeps_witness :
  let first := VDict {[ "prices" := VDict {[ "usd" := VStr "1.23" ]} ]} in
  let second := VDict {[ "prices" := VDict {[ "usd" := VStr "2.00" ]} ]} in
  let s := (new_Card "Black Lotus" (initial [Return first; Return second])).2 in
  heap s = [MkCard "Black Lotus" first]
  ∧ ∃ s', set_base_scryfall_response 0 s = (Return (), s')
      ∧ heap s' !! 0 = Some (MkCard "Black Lotus" second)
      ∧ stdout s' = [].
Proof.
  intros first second s. split; [reflexivity |].
  destruct (refetch_replaces_or_keeps s 0 (MkCard "Black Lotus" first)
              (Return second) [] eq_refl eq_refl)
    as (s' & Hrun & Hself & _ & _ & Hout).
  exists s'. split; [exact Hrun |]. split; [exact Hself | exact Hout].
Defined.

(** * Further properties of the class *)

(** ** The constructor, whatever the fetch does *)

(** [Card(n)] raises only what [fetch_json] raised and [except Exception]
    does not catch; otherwise it returns a reference that denoted no
    instance before. Either way one instance was made there: it has the
    name [n] and holds what the fetch returned, of whatever type, or [None]
    if it raised; a line is printed only if it raised an [Exception]; the
    instances that existed stay as they were. *)
Theorem constructor_outcome `{Fetcher W} (s : state W) (n : string) :
  ∃ s',
    new_Card n s
    = (after_fetch (fetch_json (get_base_scryfall_url n) (net s)).1
         (length (heap s)), s')
    ∧ heap s !! length (heap s) = None
    ∧ heap s' !! length (heap s)
      = Some (MkCard n (stored (fetch_json (get_base_scryfall_url n) (net s)).1))
    ∧ length (heap s') = S (length (heap s))
    ∧ (∀ l c, heap s !! l = Some c → heap s' !! l = Some c)
    ∧ stdout s'
      = (stdout s ++ printed (fetch_json (get_base_scryfall_url n) (net s)).1)%list
    ∧ net s' = (fetch_json (get_base_scryfall_url n) (net s)).2.
Proof.
  destruct (fetch_json (get_base_scryfall_url n) (net s)) as [r w] eqn:Hf.
  eexists. split; [by apply new_Card_run |]. simpl.
  split; [by apply lookup_ge_None_2 |].
  split; [apply lookup_fresh |].
  split; [rewrite length_app; simpl; lia |].
  split; [| done]. intros l c Hl. by apply lookup_app_l_Some.
Qed.

(** ** A response that is no mapping *)

(** When [fetch_json] returns something that is not a mapping, the
    constructor stores it all the same and prints nothing. From then on the
    field projection, for every key and sub-key, raises [AttributeError] if
    the stored value is truthy (a non-empty list or string, a non-zero
    number, [True]) and returns [None] if it is falsy. *)
Theorem non_mapping_response `{Fetcher W} (s : state W) (n : string)
    (v : value) (w : W) :
  fetch_json (get_base_scryfall_url n) (net s) = (Return v, w) →
  is_dict v = false →
  ∃ s',
    new_Card n s = (Return (length (heap s)), s')
    ∧ heap s' !! length (heap s) = Some (MkCard n v)
    ∧ stdout s' = stdout s
    ∧ ∀ key sub_key,
        get_value_from_base_scryfall_response (length (heap s)) key sub_key s'
        = (if truthy v then Raised (AttributeError v "get") else Return VNone,
           s').
Proof.
  intros Hf Hv. eexists. split; [by apply new_Card_returned |]. simpl.
  split; [apply lookup_fresh |].
  split; [by rewrite app_nil_r |].
  intros key sub_key.
  rewrite (getField_run _ _ (MkCard n v)) by apply lookup_fresh.
  unfold projection. simpl scryfall_response.
  destruct (truthy v); [| done].
  by rewrite (py_get_not_dict _ _ Hv).
Qed.

Lemma non_mapping_response_witness :
  let hits := VList [VDict doc_usd_only] in
  (∃ s', new_Card "Black Lotus" (initial [Return hits]) = (Return 0, s')
     ∧ dollar_min_price 0 s'
       = (Raised (Exn "AttributeError" "'list' object has no attribute 'get'"),
          s'))
  ∧ (∃ s', new_Card "Black Lotus" (initial [Return (VList [])]) = (Return 0, s')
       ∧ dollar_min_price 0 s' = (Return VNone, s')).
Proof.
  intros hits. split.
  - destruct (non_mapping_response (initial [Return hits]) "Black Lotus"
                hits [] eq_refl eq_refl) as (s' & Hnew & _ & _ & Hget).
    exists s'. split; [exact Hnew |]. exact (Hget "prices" (Some "usd")).
  - destruct (non_mapping_response (initial [Return (VList [])]) "Black Lotus"
                (VList []) [] eq_refl eq_refl) as (s' & Hnew & _ & _ & Hget).
    exists s'. split; [exact Hnew |]. exact (Hget "prices" (Some "usd")).
Defined.

(** ** What the field projection looks at *)

(** The field projection reads the entry at [key] and nothing else of the
    document: on two instances, in whatever states, whose documents are
    mappings with the same entry at [key] (or both without one), it gives
    the same outcome, whatever else the documents hold. *)
Theorem getField_reads_only_key {W W' : Type} (s : state W) (s' : state W')
    (self self' : ref) (c c' : Card) (d d' : gmap string value)
    (key : string) (sub_key : option string) :
  heap s !! self = Some c →
  heap s' !! self' = Some c' →
  scryfall_response c = VDict d →
  scryfall_response c' = VDict d' →
  d !! key = d' !! key →
  (get_value_from_base_scryfall_response self key sub_key s).1
  = (get_value_from_base_scryfall_response self' key sub_key s').1.
Proof.
  intros Hc Hc' Hd Hd' Hkey.
  rewrite (getField_run _ _ _ _ _ Hc), (getField_run _ _ _ _ _ Hc'), Hd, Hd'.
  simpl. destruct (d !! key) as [v |] eqn:Hk; symmetry in Hkey.
  - unfold projection. simpl truthy.
    rewrite (dict_truthy_lookup _ _ _ Hk), (dict_truthy_lookup _ _ _ Hkey).
    by rewrite !py_get_dict, Hk, Hkey.
  - by rewrite (projection_missing _ _ _ Hk), (projection_missing _ _ _ Hkey).
Qed.

Lemma getField_reads_only_key_witness :
  (get_value_from_base_scryfall_response 0 "prices" (Some "usd")
     (holding "Black Lotus" (VDict doc_usd_only))).1
  = (get_value_from_base_scryfall_response 0 "prices" (Some "usd")
       (holding "Mox Pearl"
          (VDict (<["name" := VStr "Mox Pearl"]> doc_usd_only)))).1.
Proof.
  apply (getField_reads_only_key
           (holding "Black Lotus" (VDict doc_usd_only))
           (holding "Mox Pearl"
              (VDict (<["name" := VStr "Mox Pearl"]> doc_usd_only)))
           0 0
           (MkCard "Black Lotus" (VDict doc_usd_only))
           (MkCard "Mox Pearl"
              (VDict (<["name" := VStr "Mox Pearl"]> doc_usd_only)))
           doc_usd_only (<["name" := VStr "Mox Pearl"]> doc_usd_only));
    reflexivity.
Defined.

(** ** [__repr__] *)

Lemma length_append (a b : string) :
  String.length (a +:+ b) = String.length a + String.length b.
Proof. induction a as [| x a IH]; simpl; [done | by rewrite IH]. Qed.

Lemma append_inj_l (a b t : string) : a +:+ t = b +:+ t → a = b.
Proof.
  intros Heq.
  assert (Hlen : String.length a = String.length b).
  { apply (f_equal String.length) in Heq.
    rewrite !length_append in Heq. lia. }
  revert b Heq Hlen. induction a as [| x a IH]; intros [| y b] Heq Hlen;
    simpl in *; try done.
  injection Heq as -> Heq. f_equal. apply IH; [done | lia].
Qed.

(** [repr] shows the name and nothing of the document: on two instances, in
    whatever states, it gives the same string exactly when they have the
    same name; and it leaves the state as it was. *)
Theorem repr_shows_name_only {W W' : Type} (s : state W) (s' : state W')
    (self self' : ref) (c c' : Card) :
  heap s !! self = Some c →
  heap s' !! self' = Some c' →
  ((__repr__ self s).1 = (__repr__ self' s').1 ↔ name c = name c')
  ∧ __repr__ self s = (Return ("Card(name=" +:+ name c +:+ ")"), s).
Proof.
  intros Hc Hc'. rewrite (repr_run _ _ _ Hc), (repr_run _ _ _ Hc').
  split; [| done]. simpl. split.
  - intros [= Heq]. exact (append_inj_l (name c) (name c') ")" Heq).
  - by intros ->.
Qed.

Lemma repr_shows_name_only_witness :
  let s := (new_Card "Black Lotus"
              (initial [Return (VDict doc_usd_only);
                        Return (VDict doc_black_lotus)])).2 in
  let s' := (new_Card "Black Lotus" s).2 in
  ((__repr__ 0 s').1 = (__repr__ 1 s').1 ↔ "Black Lotus" = "Black Lotus")
  ∧ __repr__ 0 s' = (Return "Card(name=Black Lotus)", s').
Proof.
  intros s s'.
  exact (repr_shows_name_only s' s' 0 1
           (MkCard "Black Lotus" (VDict doc_usd_only))
           (MkCard "Black Lotus" (VDict doc_black_lotus)) eq_refl eq_refl).
Defined.

(** ** One fetch for each construction *)

Lemma constructions_cons (o : op) (ops : list op) :
  constructions (o :: ops)
  = (if is_read o then 0 else 1) + constructions ops.
Proof.
  unfold constructions. rewrite filter_cons.
  destruct (is_read o); by case_decide.
Qed.

(** Over any list of operations run from any state, the number of
    instances and the number of calls to [fetch_json] both grow by the
    number of constructions in the list: reads add neither, and a
    construction adds one of each whether its fetch succeeds or not. *)
Theorem run_counts `{Fetcher W} (ops : list op) (s : state W) :
  length (heap (run ops s)) = length (heap s) + constructions ops
  ∧ length (calls (run ops s)) = length (calls s) + constructions ops.
Proof.
  revert s. induction ops as [| o ops IH]; intros s.
  - unfold constructions. simpl. lia.
  - change (run (o :: ops) s) with (run ops (exec o s)).
    destruct (IH (exec o s)) as [-> ->]. rewrite constructions_cons.
    destruct (is_read o) eqn:Ho.
    + rewrite (exec_read _ _ Ho). lia.
    + destruct o as [n | | | | |]; try done.
      destruct (new_Card_total s n) as (r & w & Hf).
      rewrite (exec_construct _ _ _ _ Hf). simpl.
      rewrite !length_app. simpl. lia.
Qed.

(** ** Clients that refetch *)

(** In every state reached by constructing, reading and refetching, each
    document is [None] or what some call to [fetch_json] for the URL of its
    instance's name returned, whole; and no call changes the name of an
    instance or removes one. *)
Theorem refetch_keeps_documents_whole `{Fetcher W} (s : state W) :
  reachable_with_refetch s →
  documents_from_some_fetch s
  ∧ ∀ k l c, heap s !! l = Some c →
      ∃ c', heap (exec_call k s) !! l = Some c' ∧ name c' = name c.
Proof.
  intros Hs. split.
  - induction Hs as [w | k s _ IH]; [by intros l c Hl |].
    by apply exec_call_documents.
  - intros k l c. apply exec_call_keeps_names.
Qed.

Lemma refetch_keeps_documents_whole_witness :
  let s := exec_call (Refetch 0)
             (exec_call (Own (Construct "Black Lotus"))
                (initial [Return (VDict doc_usd_only);
                          Return (VDict doc_black_lotus)])) in
  heap s = [MkCard "Black Lotus" (VDict doc_black_lotus)]
  ∧ documents_from_some_fetch s
  ∧ ∀ k l c, heap s !! l = Some c →
      ∃ c', heap (exec_call k s) !! l = Some c' ∧ name c' = name c.
Proof.
  intros s. split; [reflexivity |].
  apply (refetch_keeps_documents_whole s).
  do 2 apply refetch_exec. apply refetch_initial.
Defined.

(** In every state reached by constructing, reading and refetching, the
    output is the error lines of the calls to [fetch_json] that raised an
    instance of [Exception], one for each and in their order: nothing else
    is ever printed, no such failure goes unprinted, and a call that raised
    anything else printed nothing. *)
Theorem output_is_failed_fetches `{Fetcher W} (s : state W) :
  reachable_with_refetch s → stdout s = error_lines (calls s).
Proof.
  induction 1 as [w | k s _ IH]; [done |].
  destruct (exec_call_trace k s) as (new & -> & ->).
  by rewrite error_lines_app, IH.
Qed.

Lemma output_is_failed_fetches_witness :
  let s := run_calls [Own (Construct "Black Lotus"); Own (DollarMinPrice 0);
                      Own (Construct "Mox Pearl"); Own (Construct "Mox Jet");
                      Refetch 1]
             (initial [Raised (Exn "HTTPError" "404 Not Found");
                       Return (VDict doc_usd_only);
                       Raised (Exn "KeyboardInterrupt" "");
                       Raised (Exn "Timeout" "timed out")]) in
  stdout s = ["An error occurred while fetching Scryfall response: 404 Not Found";
              "An error occurred while fetching Scryfall response: timed out"]
  ∧ length (calls s) = 4
  ∧ stdout s = error_lines (calls s).
Proof.
  intros s. split; [reflexivity |]. split; [reflexivity |].
  apply (output_is_failed_fetches s).
  apply reachable_with_refetch_run, refetch_initial.
Defined.
